(** * check_section_ids: the section-id validator and its report

    A shallow embedding of [check_section_ids.py]: the values that
    [json.load] hands to the validator, the dictionaries it reads and builds,
    the loop of [analyze_section_ids] run over a store that holds the input
    list, and the text assembled by [format_report]. *)

From stdpp Require Import gmap strings list fin_maps pretty.

Local Open Scope Z_scope.

(** ** Values *)

(** A value of the loaded dataset. [json.load] yields [None], [bool], [int],
    [str], [float], [list] and [dict] objects. The program only tests a value
    with [isinstance(_, int)], compares those that pass, and prints values
    with [str()]; a float, list or dict is therefore carried as the text
    [str()] gives for it. *)
Inductive pyval : Type :=
| PyNone
| PyBool (b : bool)
| PyInt (z : Z)
| PyStr (s : string)
| PyOther (shown : string).

(** A Python [dict] with string keys: the input records and the entries of
    the [invalid] list alike. *)
Abbreviation record := (gmap string pyval).

Module Py.

(** [isinstance(v, int)]. In Python [bool] is a subclass of [int], so
    [True] and [False] pass. *)
Definition isinstance_int (v : pyval) : bool :=
  match v with
  | PyInt _ | PyBool _ => true
  | _ => false
  end.

(** The number an [int] object compares as ([True] is 1, [False] is 0).
    Only applied to values that passed [isinstance_int]. *)
Definition int_value (v : pyval) : Z :=
  match v with
  | PyInt z => z
  | PyBool true => 1
  | _ => 0
  end.

(** [d.get(k)]: the value under [k], [None] when the key is absent. *)
Definition get (d : record) (k : string) : pyval :=
  default PyNone (d !! k).

(** [d.get(k, dflt)]. *)
Definition get_or (d : record) (k : string) (dflt : pyval) : pyval :=
  default dflt (d !! k).

(** [str(v)], which is also what an f-string field [{v}] prints. *)
Definition str (v : pyval) : string :=
  match v with
  | PyNone => "None"
  | PyBool true => "True"
  | PyBool false => "False"
  | PyInt z => pretty z
  | PyStr s => s
  | PyOther shown => shown
  end.

(** [min(best :: l)]: Python keeps the first element and replaces it by
    a later one only when that one is strictly smaller. *)
Fixpoint min_from (best : pyval) (l : list pyval) : pyval :=
  match l with
  | [] => best
  | x :: rest =>
      min_from (if int_value x <? int_value best then x else best) rest
  end.

(** [max(best :: l)]: a later element replaces the current one only when
    it is strictly greater. *)
Fixpoint max_from (best : pyval) (l : list pyval) : pyval :=
  match l with
  | [] => best
  | x :: rest =>
      max_from (if int_value best <? int_value x then x else best) rest
  end.

(** The one-character string ["\n"]. *)
Definition LF : string := String (Ascii.ascii_of_nat 10) EmptyString.

(** [sep.join(l)]. *)
Fixpoint join (sep : string) (l : list string) : string :=
  match l with
  | [] => ""
  | [s] => s
  | s :: rest => s +:+ sep +:+ join sep rest
  end.

End Py.

(** ** Constants *)

Definition MIN_SECTION_ID : Z := 100000.
Definition MAX_SECTION_ID : Z := 999999.

(** ** The validator *)

(** The exception [analyze_section_ids] raises. *)
Inductive pyexn : Type :=
| ValueError (msg : string).

(** The dictionary [analyze_section_ids] returns, one field per key. *)
Record stats : Type := Stats {
  stats_count : nat;
  stats_min : pyval;
  stats_max : pyval;
  stats_invalid : list record
}.

Inductive outcome : Type :=
| Raised (e : pyexn)
| Returned (s : stats).

(** What the loop of [analyze_section_ids] can reach: the list object
    [data] it iterates over, and its two local lists. *)
Record frame : Type := Frame {
  data : list record;
  section_ids : list pyval;
  invalid_entries : list record
}.

Definition issue_text : string := "Missing or non-integer sectionId".

Definition no_ids_message : string :=
  "No valid sectionId values found in the dataset.".

(** The dictionary literal of the range branch. *)
Definition range_entry (section_id : pyval) (entry : record) : record :=
  {[ "sectionId" := section_id;
     "courseCode" := Py.get entry "courseCode";
     "sectionName" := Py.get entry "sectionName" ]}.

(** The dictionary literal of the [else] branch. *)
Definition type_entry (section_id : pyval) (entry : record) : record :=
  {[ "sectionId" := section_id;
     "courseCode" := Py.get entry "courseCode";
     "sectionName" := Py.get entry "sectionName";
     "issue" := PyStr issue_text ]}.

(** [MIN_SECTION_ID <= section_id <= MAX_SECTION_ID]. *)
Definition in_range (section_id : pyval) : bool :=
  (MIN_SECTION_ID <=? Py.int_value section_id)
  && (Py.int_value section_id <=? MAX_SECTION_ID).

(** The body of the [for] loop, for one [entry]. *)
Definition loop_body (entry : record) (fr : frame) : frame :=
  let section_id := Py.get entry "sectionId" in
  if Py.isinstance_int section_id then
    let fr1 :=
      Frame (data fr) (section_ids fr ++ [section_id]) (invalid_entries fr) in
    if negb (in_range section_id) then
      Frame (data fr1) (section_ids fr1)
            (invalid_entries fr1 ++ [range_entry section_id entry])
    else fr1
  else
    Frame (data fr) (section_ids fr)
          (invalid_entries fr ++ [type_entry section_id entry]).

(** [for entry in data]: the list iterator keeps an index [i] and stops
    when it is past the end of the list. [fuel] bounds the number of
    iterations. *)
Fixpoint for_loop (fuel : nat) (i : nat) (fr : frame) : frame :=
  match fuel with
  | O => fr
  | S fuel' =>
      match data fr !! i with
      | None => fr
      | Some entry => for_loop fuel' (S i) (loop_body entry fr)
      end
  end.

(** The frame when the loop is left. *)
Definition run_loop (d : list record) : frame :=
  for_loop (length d) 0%nat (Frame d [] []).

(** The statements after the loop: [if not section_ids: raise ...], then the
    returned dictionary. *)
Definition finish (fr : frame) : outcome :=
  match section_ids fr with
  | [] => Raised (ValueError no_ids_message)
  | first :: rest =>
      Returned (Stats (length (section_ids fr))
                      (Py.min_from first rest)
                      (Py.max_from first rest)
                      (invalid_entries fr))
  end.

Definition analyze_section_ids (d : list record) : outcome :=
  finish (run_loop d).

(** ** The loop, record by record *)

(** What one record adds to [section_ids] and to [invalid_entries]: the loop
    body run from empty lists. *)
Definition keys_of (entry : record) : list pyval :=
  section_ids (loop_body entry (Frame [] [] [])).

Definition reported (entry : record) : list record :=
  invalid_entries (loop_body entry (Frame [] [] [])).

(** The keys that passed the type check of the loop, in record order. *)
Definition checked_keys (d : list record) : list pyval :=
  filter (λ v, Py.isinstance_int v) ((λ entry, Py.get entry "sectionId") <$> d).

(** ** The report *)

(** One itemized line of the report. *)
Definition item_line (item : record) : string :=
  "  - sectionId=" +:+ Py.str (Py.get item "sectionId") +:+ " "
  +:+ "courseCode=" +:+ Py.str (Py.get item "courseCode") +:+ " "
  +:+ "sectionName=" +:+ Py.str (Py.get item "sectionName") +:+ " "
  +:+ "issue=" +:+ Py.str (Py.get_or item "issue" (PyStr "out of range")).

Definition truncation_line : string := "  ... (truncated)".

Definition all_in_range_line : string :=
  "All section IDs fall within the expected range.".

(** The list [lines] as first built. *)
Definition head_lines (st : stats) : list string :=
  [ "Section ID Analysis";
    "====================";
    "Total entries checked: " +:+ pretty (stats_count st);
    "Minimum sectionId: " +:+ Py.str (stats_min st);
    "Maximum sectionId: " +:+ Py.str (stats_max st);
    "Expected range: " +:+ pretty MIN_SECTION_ID +:+ " - "
      +:+ pretty MAX_SECTION_ID;
    "" ].

Definition invalid_header (st : stats) : string :=
  "Out-of-range or invalid section IDs ("
  +:+ pretty (length (stats_invalid st)) +:+ "):".

(** The list [lines] when it is joined. *)
Definition report_lines (st : stats) : list string :=
  head_lines st ++
  match stats_invalid st with
  | [] => [all_in_range_line]
  | _ :: _ =>
      [invalid_header st]
      ++ (item_line <$> take 50 (stats_invalid st))
      ++ (if (50 <? length (stats_invalid st))%nat
          then [truncation_line] else [])
  end.

Definition format_report (st : stats) : string :=
  Py.join Py.LF (report_lines st).

(** ** Lines of the report *)

(** [line.startswith(p)]. *)
Fixpoint starts_with (p line : string) : bool :=
  match p with
  | EmptyString => true
  | String a p' =>
      match line with
      | EmptyString => false
      | String b line' => Ascii.eqb a b && starts_with p' line'
      end
  end.

(** A line that itemizes an entry starts as [item_line] does. *)
Definition is_item_line (line : string) : bool :=
  starts_with "  - sectionId=" line.

(** ** Sample data *)

Definition rec3 (sid code name : pyval) : record :=
  {[ "sectionId" := sid; "courseCode" := code; "sectionName" := name ]}.

Definition sample : list record :=
  [ rec3 (PyInt 150000) (PyStr "CS101") (PyStr "A");
    rec3 (PyInt 50) (PyStr "CS102") (PyStr "B");
    rec3 (PyStr "bad") (PyStr "CS103") (PyStr "C") ].

(** A dictionary with 51 invalid entries, for the truncation case. *)
Definition stats51 : stats :=
  Stats 51 (PyInt 7) (PyInt 7) (replicate 51 (range_entry (PyInt 7) ∅)).

(** ** Lines of the rendered text *)

(** Whether a text holds a newline character. *)
Fixpoint has_newline (text : string) : bool :=
  match text with
  | EmptyString => false
  | String c rest => Ascii.eqb c (Ascii.ascii_of_nat 10) || has_newline rest
  end.

(** [text.split(LF)] for the newline [LF]: the lines of a text, as a reader
    of the printed report sees them. A text without a newline is its only
    line. *)
Fixpoint split_lines (text : string) : list string :=
  match text with
  | EmptyString => [EmptyString]
  | String c rest =>
      if Ascii.eqb c (Ascii.ascii_of_nat 10) then EmptyString :: split_lines rest
      else match split_lines rest with
           | [] => [String c EmptyString]
           | line :: lines => String c line :: lines
           end
  end.

(** A value that [str()] prints without a newline. *)
Definition prints_on_one_line (v : pyval) : Prop :=
  has_newline (Py.str v) = false.

(** An entry whose four printed fields hold no newline. *)
Definition one_line_item (item : record) : Prop :=
  prints_on_one_line (Py.get item "sectionId")
  ∧ prints_on_one_line (Py.get item "courseCode")
  ∧ prints_on_one_line (Py.get item "sectionName")
  ∧ prints_on_one_line (Py.get_or item "issue" (PyStr "out of range")).

(** A dictionary none of whose printed values holds a newline: the minimum,
    the maximum and the fields of the entries that are itemized. *)
Definition one_line_values (st : stats) : Prop :=
  prints_on_one_line (stats_min st)
  ∧ prints_on_one_line (stats_max st)
  ∧ Forall one_line_item (take 50 (stats_invalid st)).


(** * Properties *)

Example sample_stats :
  analyze_section_ids sample =
  Returned (Stats 2 (PyInt 50) (PyInt 150000)
    [ rec3 (PyInt 50) (PyStr "CS102") (PyStr "B");
      type_entry (PyStr "bad") (rec3 PyNone (PyStr "CS103") (PyStr "C")) ]).
Proof. vm_compute. reflexivity. Qed.

(** ** The loop visits every record once *)

Lemma loop_body_data entry fr : data (loop_body entry fr) = data fr.
Proof.
  unfold loop_body.
  destruct (Py.isinstance_int _); [destruct (negb _)|]; reflexivity.
Qed.

Lemma loop_body_appends entry fr :
  loop_body entry fr =
  Frame (data fr) (section_ids fr ++ keys_of entry)
        (invalid_entries fr ++ reported entry).
Proof.
  unfold keys_of, reported, loop_body. destruct fr as [d ids inv]; simpl.
  destruct (Py.isinstance_int _); [destruct (negb _)|]; simpl;
    rewrite ?app_nil_r; reflexivity.
Qed.

Lemma foldl_loop_body (l : list record) fr :
  foldl (λ fr entry, loop_body entry fr) fr l =
  Frame (data fr) (section_ids fr ++ (l ≫= keys_of))
        (invalid_entries fr ++ (l ≫= reported)).
Proof.
  revert fr. induction l as [|entry l IH]; intros fr; simpl.
  - rewrite !app_nil_r. by destruct fr.
  - rewrite IH, loop_body_appends; simpl. by rewrite <- !app_assoc.
Qed.

(** The iterator visits the records from index [i] on, once each, provided
    the fuel covers the rest of the list. *)
Lemma for_loop_foldl fuel i fr :
  (length (data fr) ≤ fuel + i)%nat →
  for_loop fuel i fr =
  foldl (λ fr entry, loop_body entry fr) fr (drop i (data fr)).
Proof.
  revert i fr. induction fuel as [|fuel IH]; intros i fr Hlen; simpl.
  - rewrite drop_ge by lia. reflexivity.
  - destruct (data fr !! i) as [entry|] eqn:Hi.
    + rewrite (drop_S _ _ _ Hi); simpl.
      rewrite IH by (rewrite loop_body_data; lia).
      by rewrite loop_body_data.
    + apply lookup_ge_None in Hi. rewrite drop_ge by lia. reflexivity.
Qed.

Lemma run_loop_eq (d : list record) :
  run_loop d = Frame d (d ≫= keys_of) (d ≫= reported).
Proof.
  unfold run_loop. rewrite for_loop_foldl by (simpl; lia).
  rewrite foldl_loop_body. reflexivity.
Qed.

Lemma keys_of_checked (d : list record) : d ≫= keys_of = checked_keys d.
Proof.
  unfold checked_keys. induction d as [|entry d IH]; [done|].
  rewrite bind_cons, fmap_cons, filter_cons, IH.
  unfold keys_of, loop_body; simpl.
  destruct (Py.isinstance_int (Py.get entry "sectionId")) eqn:Hint.
  - simpl. by destruct (negb _).
  - reflexivity.
Qed.

Lemma analyze_unfold (d : list record) :
  analyze_section_ids d =
  match checked_keys d with
  | [] => Raised (ValueError no_ids_message)
  | first :: rest =>
      Returned (Stats (length (checked_keys d))
                      (Py.min_from first rest) (Py.max_from first rest)
                      (d ≫= reported))
  end.
Proof.
  unfold analyze_section_ids, finish.
  rewrite run_loop_eq; simpl. by rewrite keys_of_checked.
Qed.

Lemma checked_keys_nil (d : list record) :
  checked_keys d = [] ↔
  Forall (λ entry, Py.isinstance_int (Py.get entry "sectionId") = false) d.
Proof.
  unfold checked_keys. induction d as [|entry d IH]; [by split|].
  rewrite fmap_cons, filter_cons, Forall_cons.
  destruct (Py.isinstance_int (Py.get entry "sectionId")) eqn:Hint.
  - simpl. split; [done|]. by intros [? _].
  - simpl. rewrite IH. split; [by split | by intros [_ ?]].
Qed.

(** The two dictionary literals differ in the [issue] key. *)
Lemma range_entry_no_issue v entry : range_entry v entry !! "issue" = None.
Proof. unfold range_entry. by simplify_map_eq. Qed.

Lemma type_entry_issue v entry :
  type_entry v entry !! "issue" = Some (PyStr issue_text).
Proof. unfold type_entry. by simplify_map_eq. Qed.

(** What a record adds to [invalid_entries], by the two tests of the loop
    body. *)
Lemma reported_cases (entry : record) :
  let key := Py.get entry "sectionId" in
  (Py.isinstance_int key = true ∧ in_range key = true
     ∧ reported entry = [])
  ∨ (Py.isinstance_int key = true ∧ in_range key = false
     ∧ reported entry = [range_entry key entry])
  ∨ (Py.isinstance_int key = false
     ∧ reported entry = [type_entry key entry]).
Proof.
  unfold reported, loop_body; simpl.
  destruct (Py.isinstance_int (Py.get entry "sectionId")); simpl;
    [destruct (in_range (Py.get entry "sectionId")); simpl|];
    [left | right; left | right; right]; done.
Qed.

Lemma checked_keys_cons (entry : record) (d : list record) :
  checked_keys (entry :: d) =
  (if Py.isinstance_int (Py.get entry "sectionId")
   then [Py.get entry "sectionId"] else []) ++ checked_keys d.
Proof.
  unfold checked_keys. rewrite fmap_cons, filter_cons.
  by destruct (Py.isinstance_int (Py.get entry "sectionId")).
Qed.

(** [min] and [max] return an element of the list that bounds the others. *)
Lemma min_from_elem best l : Py.min_from best l ∈ best :: l.
Proof.
  revert best. induction l as [|x l IH]; intros best; simpl; [left|].
  specialize (IH (if Py.int_value x <? Py.int_value best then x else best)).
  destruct (Py.int_value x <? Py.int_value best).
  - by right.
  - apply elem_of_cons in IH as [->|IH]; [left | right; by right].
Qed.

Lemma min_from_le_best best l :
  Py.int_value (Py.min_from best l) ≤ Py.int_value best.
Proof.
  revert best. induction l as [|x l IH]; intros best; simpl; [lia|].
  destruct (Z.ltb_spec (Py.int_value x) (Py.int_value best)) as [Hlt|Hge].
  - specialize (IH x). lia.
  - apply IH.
Qed.

Lemma min_from_le best l k :
  k ∈ best :: l → Py.int_value (Py.min_from best l) ≤ Py.int_value k.
Proof.
  revert best. induction l as [|x l IH]; intros best Hk; simpl.
  - apply list_elem_of_singleton in Hk as ->. lia.
  - apply elem_of_cons in Hk as [->|Hk].
    + destruct (Z.ltb_spec (Py.int_value x) (Py.int_value best)) as [Hlt|Hge];
        [|apply min_from_le_best].
      pose proof (min_from_le_best x l). lia.
    + apply elem_of_cons in Hk as [->|Hk].
      * destruct (Z.ltb_spec (Py.int_value x) (Py.int_value best)) as [Hlt|Hge];
          [apply min_from_le_best|].
        pose proof (min_from_le_best best l). lia.
      * apply IH. by right.
Qed.

Lemma max_from_elem best l : Py.max_from best l ∈ best :: l.
Proof.
  revert best. induction l as [|x l IH]; intros best; simpl; [left|].
  specialize (IH (if Py.int_value best <? Py.int_value x then x else best)).
  destruct (Py.int_value best <? Py.int_value x).
  - by right.
  - apply elem_of_cons in IH as [->|IH]; [left | right; by right].
Qed.

Lemma max_from_ge_best best l :
  Py.int_value best ≤ Py.int_value (Py.max_from best l).
Proof.
  revert best. induction l as [|x l IH]; intros best; simpl; [lia|].
  destruct (Z.ltb_spec (Py.int_value best) (Py.int_value x)) as [Hlt|Hge].
  - specialize (IH x). lia.
  - apply IH.
Qed.

Lemma max_from_ge best l k :
  k ∈ best :: l → Py.int_value k ≤ Py.int_value (Py.max_from best l).
Proof.
  revert best. induction l as [|x l IH]; intros best Hk; simpl.
  - apply list_elem_of_singleton in Hk as ->. lia.
  - apply elem_of_cons in Hk as [->|Hk].
    + destruct (Z.ltb_spec (Py.int_value best) (Py.int_value x)) as [Hlt|Hge];
        [|apply max_from_ge_best].
      pose proof (max_from_ge_best x l). lia.
    + apply elem_of_cons in Hk as [->|Hk].
      * destruct (Z.ltb_spec (Py.int_value best) (Py.int_value x)) as [Hlt|Hge];
          [apply max_from_ge_best|].
        pose proof (max_from_ge_best best l). lia.
      * apply IH. by right.
Qed.

(** ** Counting lines of the report *)

Lemma filter_item_lines (l : list record) :
  filter (λ line, is_item_line line) (item_line <$> l) = item_line <$> l.
Proof.
  induction l as [|item l IH]; [done|].
  rewrite fmap_cons, filter_cons, IH. reflexivity.
Qed.

Lemma item_line_not_truncation (item : record) :
  item_line item ≠ truncation_line.
Proof. unfold item_line, truncation_line. simpl. discriminate. Qed.

Lemma filter_truncation_items (l : list record) :
  filter (λ line, line = truncation_line) (item_line <$> l) = [].
Proof.
  induction l as [|item l IH]; [done|].
  rewrite fmap_cons, filter_cons, IH.
  by rewrite decide_False by apply item_line_not_truncation.
Qed.

Lemma filter_item_head (st : stats) :
  filter (λ line, is_item_line line) (head_lines st) = [].
Proof. reflexivity. Qed.

Lemma filter_truncation_head (st : stats) :
  filter (λ line, line = truncation_line) (head_lines st) = [].
Proof.
  unfold head_lines, truncation_line.
  repeat (rewrite filter_cons, decide_False by (simpl; discriminate)).
  reflexivity.
Qed.

(** ** The rendered text, line by line *)

Lemma has_newline_app (s t : string) :
  has_newline (s +:+ t) = has_newline s || has_newline t.
Proof.
  induction s as [|c s IH]; simpl; [done|].
  by rewrite IH, orb_assoc.
Qed.

Lemma split_lines_cons_form (text : string) :
  ∃ line lines, split_lines text = line :: lines.
Proof.
  induction text as [|c rest (line & lines & IH)]; simpl; [by eexists _, _|].
  destruct (Ascii.eqb c _); [by eexists _, _|].
  rewrite IH. by eexists _, _.
Qed.

Lemma split_lines_one_line (text : string) :
  has_newline text = false → split_lines text = [text].
Proof.
  induction text as [|c rest IH]; simpl; [done|].
  destruct (Ascii.eqb c _); simpl; [done|].
  intros Hrest. by rewrite IH.
Qed.

(** Splitting undoes a newline put between two texts. *)
Lemma split_lines_app (s t : string) :
  split_lines (s +:+ Py.LF +:+ t) = split_lines s ++ split_lines t.
Proof.
  induction s as [|c s IH]; simpl; [done|].
  rewrite IH. destruct (Ascii.eqb c _); [done|].
  by destruct (split_lines_cons_form s) as (line & lines & ->).
Qed.

Lemma split_lines_join (first : string) (rest : list string) :
  split_lines (Py.join Py.LF (first :: rest)) = (first :: rest) ≫= split_lines.
Proof.
  revert first. induction rest as [|next rest IH]; intros first.
  - simpl. by rewrite app_nil_r.
  - change (Py.join Py.LF (first :: next :: rest))
      with (first +:+ Py.LF +:+ Py.join Py.LF (next :: rest)).
    by rewrite split_lines_app, IH, !bind_cons.
Qed.

Lemma bind_split_lines_one_line (lines : list string) :
  Forall (λ line, has_newline line = false) lines →
  lines ≫= split_lines = lines.
Proof.
  induction 1 as [|line lines Hline _ IH]; [done|].
  by rewrite bind_cons, IH, split_lines_one_line.
Qed.

(** Decimal numerals hold no newline. *)
Lemma has_newline_pretty_N_go (x : N) (s : string) :
  has_newline (pretty_N_go x s) = has_newline s.
Proof.
  revert s. induction (N.lt_wf_0 x) as [x _ IH]; intros s.
  destruct (decide (x = 0)%N) as [->|Hx]; [by rewrite pretty_N_go_0|].
  rewrite pretty_N_go_step by lia.
  rewrite IH by (apply N.div_lt; lia).
  simpl. unfold pretty_N_char. by repeat case_match.
Qed.

Lemma has_newline_pretty_N (x : N) : has_newline (pretty x) = false.
Proof.
  unfold pretty, pretty_N. case_decide; [done|].
  by rewrite has_newline_pretty_N_go.
Qed.

Lemma has_newline_pretty_nat (n : nat) : has_newline (pretty n) = false.
Proof. apply has_newline_pretty_N. Qed.

Lemma has_newline_pretty_Z (z : Z) : has_newline (pretty z) = false.
Proof.
  destruct z as [|p|p]; [done|apply has_newline_pretty_N|].
  unfold pretty, pretty_Z. rewrite has_newline_app. simpl.
  apply has_newline_pretty_N.
Qed.

(** What passed the type test prints on one line. *)
Lemma checked_key_one_line (v : pyval) :
  Py.isinstance_int v = true → prints_on_one_line v.
Proof.
  unfold prints_on_one_line.
  destruct v as [|[]|z|s|s]; simpl; try done.
  intros _. apply has_newline_pretty_Z.
Qed.

Lemma item_line_one_line (item : record) :
  one_line_item item → has_newline (item_line item) = false.
Proof.
  unfold one_line_item, prints_on_one_line, item_line.
  intros (Hid & Hcode & Hname & Hissue).
  rewrite !has_newline_app, Hid, Hcode, Hname, Hissue. reflexivity.
Qed.

Lemma head_lines_one_line (st : stats) :
  prints_on_one_line (stats_min st) →
  prints_on_one_line (stats_max st) →
  Forall (λ line, has_newline line = false) (head_lines st).
Proof.
  unfold prints_on_one_line. intros Hmin Hmax. unfold head_lines.
  repeat apply Forall_cons_2; try apply Forall_nil_2;
    rewrite ?has_newline_app, ?Hmin, ?Hmax, ?has_newline_pretty_nat,
      ?has_newline_pretty_Z; reflexivity.
Qed.

Lemma report_lines_one_line (st : stats) :
  one_line_values st →
  Forall (λ line, has_newline line = false) (report_lines st).
Proof.
  intros (Hmin & Hmax & Hitems). unfold report_lines.
  apply Forall_app_2; [by apply head_lines_one_line|].
  destruct (stats_invalid st) as [|item items] eqn:Hinv.
  { by apply Forall_cons_2. }
  rewrite <- Hinv in *. apply Forall_app_2; [|apply Forall_app_2].
  - apply Forall_cons_2; [|done]. unfold invalid_header.
    by rewrite !has_newline_app, has_newline_pretty_nat.
  - apply Forall_fmap. eapply Forall_impl; [exact Hitems|].
    intros it Hit. by apply item_line_one_line.
  - destruct (50 <? length (stats_invalid st))%nat; [|done].
    by apply Forall_cons_2.
Qed.

Lemma report_lines_cons (st : stats) :
  ∃ rest, report_lines st = "Section ID Analysis" :: rest.
Proof. unfold report_lines, head_lines. by eexists. Qed.

(** The lines of the rendered text, in general and when no printed value
    holds a newline. *)
Lemma split_lines_format_report (st : stats) :
  split_lines (format_report st) = report_lines st ≫= split_lines.
Proof.
  unfold format_report.
  destruct (report_lines_cons st) as (rest & ->). apply split_lines_join.
Qed.

Lemma text_lines_of_report (st : stats) :
  one_line_values st → split_lines (format_report st) = report_lines st.
Proof.
  intros Hst. rewrite split_lines_format_report.
  by apply bind_split_lines_one_line, report_lines_one_line.
Qed.

Lemma returned_min_max_one_line (d : list record) (st : stats) :
  analyze_section_ids d = Returned st →
  prints_on_one_line (stats_min st) ∧ prints_on_one_line (stats_max st).
Proof.
  intros Hst. rewrite analyze_unfold in Hst.
  destruct (checked_keys d) as [|first rest] eqn:Hkeys; [done|].
  injection Hst as <-; simpl.
  assert (Hall : ∀ v, v ∈ first :: rest → prints_on_one_line v).
  { intros v Hv. rewrite <- Hkeys in Hv. unfold checked_keys in Hv.
    apply list_elem_of_filter in Hv as [Hint _].
    by apply checked_key_one_line, Is_true_true. }
  split; apply Hall; [apply min_from_elem | apply max_from_elem].
Qed.


Lemma stats51_one_line : one_line_values stats51.
Proof.
  split; [reflexivity|]. split; [reflexivity|].
  apply Forall_take, Forall_replicate.
  split; [reflexivity|]. split; [reflexivity|]. split; reflexivity.
Qed.

(** ** The claims *)

(** A boolean key takes the integer branch of the loop body, at any point
    of the loop: it is appended to [section_ids], and since [True] and
    [False] compare as 1 and 0 the record is listed as out of range. *)
Lemma boolean_key_takes_integer_branch (b : bool) (entry : record) fr :
  entry !! "sectionId" = Some (PyBool b) →
  loop_body entry fr =
  Frame (data fr) (section_ids fr ++ [PyBool b])
        (invalid_entries fr ++ [range_entry (PyBool b) entry]).
Proof.
  intros Hkey. unfold loop_body, Py.get. rewrite Hkey; simpl.
  by destruct b.
Qed.

(** C1 (the code departs from it). A record whose [sectionId] is the boolean
    [True] passes [isinstance(_, int)]: on the one-record dataset holding it
    the validator returns normally, counts the record, reports [True] as
    both minimum and maximum, and lists the record as out of range, with no
    [issue] key, instead of as a missing or non-integer key. *)
Theorem boolean_key_counts_as_integer :
  analyze_section_ids [ {[ "sectionId" := PyBool true ]} ] =
    Returned (Stats 1 (PyBool true) (PyBool true)
                [ {[ "sectionId" := PyBool true;
                     "courseCode" := PyNone;
                     "sectionName" := PyNone ]} ])
  ∧ keys_of {[ "sectionId" := PyBool true ]} = [PyBool true]
  ∧ Forall (λ item : record, item !! "issue" = None)
      (reported {[ "sectionId" := PyBool true ]})
  ∧ item_line <$> reported {[ "sectionId" := PyBool true ]} =
      [ "  - sectionId=True courseCode=None sectionName=None issue=out of range" ].
Proof.
  split; [|split; [|split]].
  - vm_compute. reflexivity.
  - vm_compute. reflexivity.
  - vm_compute. apply Forall_cons. split; [reflexivity | apply Forall_nil_2].
  - vm_compute. reflexivity.
Qed.

(** C2 (the code departs from it, by the defect of C1). The one-record
    dataset whose [sectionId] is the boolean [True] holds no integer key,
    yet the validator does not raise its [ValueError]: it returns a
    dictionary with count 1 and [True] as minimum and maximum. *)
Theorem boolean_only_dataset_returns :
  Forall (λ entry : record, ∀ z, entry !! "sectionId" ≠ Some (PyInt z))
    [ ({[ "sectionId" := PyBool true ]} : record) ]
  ∧ analyze_section_ids [ {[ "sectionId" := PyBool true ]} ] =
      Returned (Stats 1 (PyBool true) (PyBool true)
                  [ {[ "sectionId" := PyBool true;
                       "courseCode" := PyNone;
                       "sectionName" := PyNone ]} ])
  ∧ analyze_section_ids [ {[ "sectionId" := PyBool true ]} ]
    ≠ Raised (ValueError no_ids_message).
Proof.
  split; [|split].
  - apply Forall_cons_2; [|apply Forall_nil_2].
    intros z. by rewrite lookup_singleton_eq.
  - vm_compute. reflexivity.
  - vm_compute. discriminate.
Qed.



(** C8. The validator only reads its input: no iteration of the loop
    changes the list [data], so after a run the list is the one that was
    passed in, and a second run on it gives the outcome of the first, with
    the same count, minimum, maximum and invalid entries. *)
Theorem validator_repeatable (d : list record) :
  (∀ fuel i fr, data (for_loop fuel i fr) = data fr)
  ∧ data (run_loop d) = d
  ∧ analyze_section_ids (data (run_loop d)) = analyze_section_ids d
  ∧ (∀ st1 st2,
       analyze_section_ids d = Returned st1 →
       analyze_section_ids (data (run_loop d)) = Returned st2 →
       stats_count st1 = stats_count st2 ∧ stats_min st1 = stats_min st2
       ∧ stats_max st1 = stats_max st2
       ∧ stats_invalid st1 = stats_invalid st2).
Proof.
  assert (Hstep : ∀ fuel i fr, data (for_loop fuel i fr) = data fr).
  { induction fuel as [|fuel IH]; intros i fr; simpl; [done|].
    destruct (data fr !! i) as [entry|]; [|done].
    by rewrite IH, loop_body_data. }
  assert (Hrun : data (run_loop d) = d).
  { unfold run_loop. by rewrite Hstep. }
  split; [exact Hstep|]. split; [exact Hrun|]. split; [by rewrite Hrun|].
  intros st1 st2 H1 H2. rewrite Hrun, H1 in H2.
  injection H2 as ->. done.
Qed.

Lemma validator_repeatable_witness :
  data (run_loop sample) = sample
  ∧ analyze_section_ids (data (run_loop sample)) = analyze_section_ids sample.
Proof.
  split.
  - exact (proj1 (proj2 (validator_repeatable sample))).
  - exact (proj1 (proj2 (proj2 (validator_repeatable sample)))).
Defined.

(** C4. When some key passes the type check the validator returns: the
    count is the number of keys that passed, the minimum and the maximum are
    keys that passed and bound all of them, whether in range or not. On the
    three-record sample the result is count 2, minimum 50, maximum 150000
    and two invalid entries. *)
Theorem statistics_over_checked_keys :
  (∀ d : list record, checked_keys d ≠ [] →
     ∃ st, analyze_section_ids d = Returned st
       ∧ stats_count st = length (checked_keys d)
       ∧ stats_min st ∈ checked_keys d
       ∧ stats_max st ∈ checked_keys d
       ∧ ∀ k, k ∈ checked_keys d →
           Py.int_value (stats_min st) ≤ Py.int_value k
           ∧ Py.int_value k ≤ Py.int_value (stats_max st))
  ∧ analyze_section_ids sample =
      Returned (Stats 2 (PyInt 50) (PyInt 150000)
        [ {[ "sectionId" := PyInt 50; "courseCode" := PyStr "CS102";
             "sectionName" := PyStr "B" ]};
          {[ "sectionId" := PyStr "bad"; "courseCode" := PyStr "CS103";
             "sectionName" := PyStr "C";
             "issue" := PyStr "Missing or non-integer sectionId" ]} ]).
Proof.
  split; [|vm_compute; reflexivity].
  intros d Hkeys. rewrite analyze_unfold.
  destruct (checked_keys d) as [|first rest]; [done|].
  eexists. split; [reflexivity|]. simpl.
  split; [done|]. split; [apply min_from_elem|]. split; [apply max_from_elem|].
  intros k Hk. split; [by apply min_from_le | by apply max_from_ge].
Qed.

Lemma statistics_over_checked_keys_witness :
  checked_keys sample ≠ []
  ∧ ∃ st, analyze_section_ids sample = Returned st
      ∧ stats_count st = 2%nat
      ∧ stats_min st ∈ [PyInt 150000; PyInt 50]
      ∧ stats_max st ∈ [PyInt 150000; PyInt 50].
Proof.
  assert (Hkeys : checked_keys sample ≠ []) by (vm_compute; discriminate).
  split; [exact Hkeys|].
  destruct (proj1 statistics_over_checked_keys sample Hkeys)
    as (st & Hst & Hcount & Hmin & Hmax & _).
  exists st. split; [exact Hst|]. split; [exact Hcount|].
  split; [exact Hmin | exact Hmax].
Defined.

(** C7. The invalid list of a returned dictionary is the concatenation, in
    record order, of what each record adds, and a record adds nothing, or
    the one entry without [issue] (an integer key out of range), or the one
    entry with [issue] (a key that failed the type check): never two
    entries, never one entry for both reasons. *)
Theorem invalid_in_record_order (d : list record) (st : stats) :
  analyze_section_ids d = Returned st →
  stats_invalid st = d ≫= reported
  ∧ ∀ entry : record,
      let key := Py.get entry "sectionId" in
      (length (reported entry) ≤ 1)%nat
      ∧ ((Py.isinstance_int key = true ∧ in_range key = true
            ∧ reported entry = [])
         ∨ (Py.isinstance_int key = true ∧ in_range key = false
            ∧ reported entry = [range_entry key entry]
            ∧ range_entry key entry !! "issue" = None)
         ∨ (Py.isinstance_int key = false
            ∧ reported entry = [type_entry key entry]
            ∧ type_entry key entry !! "issue" = Some (PyStr issue_text))).
Proof.
  intros Hst. rewrite analyze_unfold in Hst.
  destruct (checked_keys d); [done|]. injection Hst as <-; simpl.
  split; [done|]. intros entry. cbv zeta.
  destruct (reported_cases entry) as [(Hi & Hr & ->)|[(Hi & Hr & ->)|(Hi & ->)]];
    simpl.
  - split; [lia|]. left. by rewrite Hr.
  - split; [lia|]. right; left. rewrite Hr.
    split; [done|]. split; [done|]. split; [done|]. apply range_entry_no_issue.
  - split; [lia|]. right; right.
    split; [done|]. split; [done|]. apply type_entry_issue.
Qed.

Lemma invalid_in_record_order_witness :
  ∃ st, analyze_section_ids sample = Returned st
    ∧ stats_invalid st = sample ≫= reported.
Proof.
  eexists. split; [vm_compute; reflexivity|].
  refine (proj1 (invalid_in_record_order sample _ _)).
  vm_compute; reflexivity.
Defined.

(** C9. When the validator returns, every record is either counted or
    listed with an [issue] key, and the invalid list holds one entry per
    record that failed the type check and one per record whose checked key
    lies outside the range. *)
Theorem record_accounting (d : list record) (st : stats) :
  analyze_section_ids d = Returned st →
  length d =
    (stats_count st
     + length (filter (λ item : record, is_Some (item !! "issue"))
                      (stats_invalid st)))%nat
  ∧ length (stats_invalid st) =
    (length (filter (λ entry : record,
               Py.isinstance_int (Py.get entry "sectionId") = false) d)
     + length (filter (λ entry : record,
               Py.isinstance_int (Py.get entry "sectionId") = true
               ∧ ¬ (MIN_SECTION_ID ≤ Py.int_value (Py.get entry "sectionId")
                    ≤ MAX_SECTION_ID)%Z) d))%nat.
Proof.
  intros Hst.
  assert (Hfields : stats_count st = length (checked_keys d)
                    ∧ stats_invalid st = d ≫= reported).
  { rewrite analyze_unfold in Hst.
    destruct (checked_keys d); [done|]. by injection Hst as <-. }
  destruct Hfields as [-> ->]. clear Hst.
  induction d as [|entry d [IH1 IH2]]; [done|].
  rewrite checked_keys_cons, bind_cons, !filter_cons, filter_app.
  rewrite !length_app; simpl length at 1.
  destruct (reported_cases entry) as [(Hi & Hr & ->)|[(Hi & Hr & ->)|(Hi & ->)]];
    rewrite Hi; unfold in_range in *.
  - rewrite decide_False by done.
    rewrite decide_False by (intros [_ Hout]; apply Hout; lia).
    simpl. lia.
  - rewrite decide_False by done.
    rewrite decide_True by (split; [done|]; lia).
    rewrite filter_cons, decide_False
      by (rewrite range_entry_no_issue; apply is_Some_None).
    simpl. lia.
  - rewrite decide_True by done.
    rewrite decide_False by (by intros [? _]).
    rewrite filter_cons, decide_True by (rewrite type_entry_issue; eauto).
    simpl. lia.
Qed.

Lemma record_accounting_witness :
  ∃ st, analyze_section_ids sample = Returned st
    ∧ length sample =
      (stats_count st
       + length (filter (λ item : record, is_Some (item !! "issue"))
                        (stats_invalid st)))%nat.
Proof.
  eexists. split; [vm_compute; reflexivity|].
  refine (proj1 (record_accounting sample _ _)).
  vm_compute; reflexivity.
Defined.




(** C6. With no invalid entry the report is the two header lines, the
    count, minimum, maximum and expected-range lines, an empty line and the
    line that says every id is in range, joined by single newlines and with
    nothing after the last line; no line is the header of an invalid list. *)
Theorem report_without_invalid (count : nat) (lo hi : pyval) :
  format_report (Stats count lo hi []) =
    "Section ID Analysis" +:+ Py.LF
    +:+ "====================" +:+ Py.LF
    +:+ "Total entries checked: " +:+ pretty count +:+ Py.LF
    +:+ "Minimum sectionId: " +:+ Py.str lo +:+ Py.LF
    +:+ "Maximum sectionId: " +:+ Py.str hi +:+ Py.LF
    +:+ "Expected range: 100000 - 999999" +:+ Py.LF
    +:+ "" +:+ Py.LF
    +:+ "All section IDs fall within the expected range."
  ∧ report_lines (Stats count lo hi []) =
      head_lines (Stats count lo hi []) ++ [all_in_range_line]
  ∧ length (report_lines (Stats count lo hi [])) = 8%nat
  ∧ last (report_lines (Stats count lo hi [])) = Some all_in_range_line
  ∧ Forall (λ line,
        starts_with "Out-of-range or invalid section IDs" line = false
        ∧ is_item_line line = false)
      (report_lines (Stats count lo hi [])).
Proof.
  split; [reflexivity|]. split; [reflexivity|]. split; [reflexivity|].
  split; [reflexivity|].
  unfold report_lines, head_lines; simpl.
  repeat (apply Forall_cons; split; [split; reflexivity|]).
  apply Forall_nil_2.
Qed.

(** C10. The bounds are 100000 and 999999, and every report renders its
    range line as the text [Expected range: 100000 - 999999]: the returned
    string is the five lines before it, that text, an empty line and the
    rest, each followed by one newline; the text is always a line of the
    report, and it is the sixth line whenever the minimum and the maximum
    print without a newline, as they do in every dictionary the validator
    returns. *)
Theorem expected_range_line (st : stats) :
  MIN_SECTION_ID = 100000
  ∧ MAX_SECTION_ID = 999999
  ∧ report_lines st !! 5%nat = Some "Expected range: 100000 - 999999"
  ∧ format_report st =
      "Section ID Analysis" +:+ Py.LF
      +:+ "====================" +:+ Py.LF
      +:+ "Total entries checked: " +:+ pretty (stats_count st) +:+ Py.LF
      +:+ "Minimum sectionId: " +:+ Py.str (stats_min st) +:+ Py.LF
      +:+ "Maximum sectionId: " +:+ Py.str (stats_max st) +:+ Py.LF
      +:+ "Expected range: 100000 - 999999" +:+ Py.LF
      +:+ "" +:+ Py.LF
      +:+ Py.join Py.LF (drop 7 (report_lines st))
  ∧ "Expected range: 100000 - 999999" ∈ split_lines (format_report st)
  ∧ (prints_on_one_line (stats_min st) →
     prints_on_one_line (stats_max st) →
     split_lines (format_report st) !! 5%nat
       = Some "Expected range: 100000 - 999999")
  ∧ (∀ d, analyze_section_ids d = Returned st →
     split_lines (format_report st) !! 5%nat
       = Some "Expected range: 100000 - 999999").
Proof.
  assert (Hlist : report_lines st !! 5%nat
                  = Some "Expected range: 100000 - 999999").
  { unfold report_lines. rewrite lookup_app_l by (simpl; lia). reflexivity. }
  assert (Hsixth : prints_on_one_line (stats_min st) →
     prints_on_one_line (stats_max st) →
     split_lines (format_report st) !! 5%nat
       = Some "Expected range: 100000 - 999999").
  { intros Hmin Hmax. rewrite split_lines_format_report.
    unfold report_lines. rewrite bind_app.
    rewrite (bind_split_lines_one_line (head_lines st))
      by (by apply head_lines_one_line).
    rewrite lookup_app_l by (simpl; lia). reflexivity. }
  split; [reflexivity|]. split; [reflexivity|]. split; [exact Hlist|].
  split; [|split; [|split; [exact Hsixth|]]].
  - unfold format_report, report_lines.
    destruct (stats_invalid st) as [|item items]; reflexivity.
  - rewrite split_lines_format_report. apply list_elem_of_bind.
    exists "Expected range: 100000 - 999999". split; [left|].
    by apply list_elem_of_lookup_2 in Hlist.
  - intros d Hst.
    destruct (returned_min_max_one_line d st Hst) as [Hmin Hmax].
    by apply Hsixth.
Qed.

Lemma expected_range_line_witness :
  ∃ st, analyze_section_ids sample = Returned st
    ∧ split_lines (format_report st) !! 5%nat
      = Some "Expected range: 100000 - 999999".
Proof.
  eexists. split; [vm_compute; reflexivity|].
  refine (proj2 (proj2 (proj2 (proj2 (proj2 (proj2
            (expected_range_line _)))))) sample _).
  vm_compute. reflexivity.
Defined.

(** * Further properties of the validator *)

Lemma returned_fields (d : list record) (st : stats) :
  analyze_section_ids d = Returned st →
  ∃ first rest, checked_keys d = first :: rest
    ∧ stats_count st = length (checked_keys d)
    ∧ stats_min st = Py.min_from first rest
    ∧ stats_max st = Py.max_from first rest
    ∧ stats_invalid st = d ≫= reported.
Proof.
  intros Hst. rewrite analyze_unfold in Hst.
  destruct (checked_keys d) as [|first rest]; [done|].
  injection Hst as <-. by exists first, rest.
Qed.

Lemma length_checked_keys (d : list record) :
  (length (checked_keys d) ≤ length d)%nat.
Proof.
  unfold checked_keys. etrans; [apply length_filter|]. by rewrite length_fmap.
Qed.

Lemma length_reported (d : list record) :
  (length (d ≫= reported) ≤ length d)%nat.
Proof.
  induction d as [|entry d IH]; [done|].
  rewrite bind_cons, length_app; simpl.
  destruct (reported_cases entry) as [(_ & _ & ->)|[(_ & _ & ->)|(_ & ->)]];
    simpl; lia.
Qed.

(** X1. A returned dictionary has a count between 1 and the number of
    records, a minimum that is not above its maximum, and no more invalid
    entries than there are records. *)
Theorem returned_stats_bounds (d : list record) (st : stats) :
  analyze_section_ids d = Returned st →
  (1 ≤ stats_count st ≤ length d)%nat
  ∧ Py.int_value (stats_min st) ≤ Py.int_value (stats_max st)
  ∧ (length (stats_invalid st) ≤ length d)%nat.
Proof.
  intros Hst.
  destruct (returned_fields d st Hst)
    as (first & rest & Hkeys & -> & -> & -> & ->).
  pose proof (length_checked_keys d) as Hlen.
  split; [|split].
  - rewrite Hkeys in Hlen |- *. simpl in *. lia.
  - pose proof (min_from_le first rest first) as Hlo.
    pose proof (max_from_ge first rest first) as Hhi.
    specialize (Hlo ltac:(left)). specialize (Hhi ltac:(left)). lia.
  - apply length_reported.
Qed.

Lemma returned_stats_bounds_witness :
  ∃ st, analyze_section_ids sample = Returned st
    ∧ (1 ≤ stats_count st ≤ 3)%nat
    ∧ Py.int_value (stats_min st) ≤ Py.int_value (stats_max st).
Proof.
  eexists. split; [vm_compute; reflexivity|].
  assert (H : analyze_section_ids sample =
    Returned (Stats 2 (PyInt 50) (PyInt 150000)
      (sample ≫= reported))) by (vm_compute; reflexivity).
  destruct (returned_stats_bounds sample _ H) as (Hc & Hm & _).
  split; [exact Hc | exact Hm].
Defined.

Lemma reported_nil_iff (entry : record) :
  reported entry = [] ↔
  Py.isinstance_int (Py.get entry "sectionId") = true
  ∧ in_range (Py.get entry "sectionId") = true.
Proof.
  destruct (reported_cases entry) as [(Hi & Hr & ->)|[(Hi & Hr & ->)|(Hi & ->)]].
  - split; [by intros _ | done].
  - split; [done | intros [_ Hr']; congruence].
  - split; [done | intros [Hi' _]; congruence].
Qed.

Lemma bind_reported_nil (d : list record) :
  d ≫= reported = [] ↔
  Forall (λ entry, Py.isinstance_int (Py.get entry "sectionId") = true
                   ∧ in_range (Py.get entry "sectionId") = true) d.
Proof.
  induction d as [|entry d IH]; [by split|].
  rewrite bind_cons, Forall_cons, <- IH, <- reported_nil_iff.
  split.
  - intros Happ. by apply app_eq_nil in Happ.
  - intros [-> ->]. done.
Qed.

Lemma length_checked_keys_full (d : list record) :
  length (checked_keys d) = length d ↔
  Forall (λ entry, Py.isinstance_int (Py.get entry "sectionId") = true) d.
Proof.
  induction d as [|entry d IH]; [by split|].
  rewrite checked_keys_cons, Forall_cons, <- IH, length_app.
  pose proof (length_checked_keys d).
  destruct (Py.isinstance_int (Py.get entry "sectionId")); simpl.
  - split; [intros ?; split; [done|lia] | intros [_ ?]; lia].
  - split; [lia | by intros [? _]].
Qed.

(** X2. When the validator returns, the invalid list is empty exactly when
    every record has a key that passes the type test and lies in the range,
    and the count is the number of records exactly when every key passes
    the type test. *)
Theorem clean_dataset_iff (d : list record) (st : stats) :
  analyze_section_ids d = Returned st →
  (stats_invalid st = [] ↔
     Forall (λ entry,
       Py.isinstance_int (Py.get entry "sectionId") = true
       ∧ MIN_SECTION_ID ≤ Py.int_value (Py.get entry "sectionId")
         ≤ MAX_SECTION_ID) d)
  ∧ (stats_count st = length d ↔
     Forall (λ entry, Py.isinstance_int (Py.get entry "sectionId") = true) d).
Proof.
  intros Hst.
  destruct (returned_fields d st Hst) as (first & rest & _ & -> & _ & _ & ->).
  split; [|apply length_checked_keys_full].
  rewrite bind_reported_nil. apply Forall_proper; [|done].
  intros entry. unfold in_range.
  rewrite andb_true_iff, !Z.leb_le. done.
Qed.

Lemma clean_dataset_iff_witness :
  let d : list record :=
    [ {[ "sectionId" := PyInt 100000 ]}; {[ "sectionId" := PyInt 999999 ]} ] in
  ∃ st, analyze_section_ids d = Returned st
    ∧ stats_invalid st = [] ∧ stats_count st = 2%nat.
Proof.
  intros d.
  assert (H : analyze_section_ids d =
    Returned (Stats 2 (PyInt 100000) (PyInt 999999) []))
    by (vm_compute; reflexivity).
  exists (Stats 2 (PyInt 100000) (PyInt 999999) []).
  split; [exact H|].
  destruct (clean_dataset_iff d _ H) as [Hinv Hcount].
  split.
  - apply Hinv. repeat (apply Forall_cons; split; [vm_compute; intuition discriminate|]).
    apply Forall_nil_2.
  - apply Hcount. repeat (apply Forall_cons; split; [reflexivity|]).
    apply Forall_nil_2.
Defined.

(** X3. A record with an integer key is always counted, and it adds an
    invalid entry exactly when the key is below [MIN_SECTION_ID] or above
    [MAX_SECTION_ID]; the entry then has no [issue] key. *)
Theorem integer_key_range_test (entry : record) (z : Z) :
  entry !! "sectionId" = Some (PyInt z) →
  keys_of entry = [PyInt z]
  ∧ (reported entry = [] ↔ MIN_SECTION_ID ≤ z ≤ MAX_SECTION_ID)
  ∧ (reported entry = [range_entry (PyInt z) entry] ↔
       z < MIN_SECTION_ID ∨ MAX_SECTION_ID < z).
Proof.
  intros Hkey. unfold keys_of, reported, loop_body, Py.get.
  rewrite Hkey; simpl. unfold in_range; simpl.
  destruct (Z.leb_spec MIN_SECTION_ID z), (Z.leb_spec z MAX_SECTION_ID); simpl;
    (split; [reflexivity|]); split; split; intros; try done; lia.
Qed.

Lemma integer_key_range_test_witness :
  keys_of {[ "sectionId" := PyInt 50 ]} = [PyInt 50]
  ∧ reported {[ "sectionId" := PyInt 50 ]}
    = [range_entry (PyInt 50) {[ "sectionId" := PyInt 50 ]}].
Proof.
  assert (Hkey : ({[ "sectionId" := PyInt 50 ]} : record) !! "sectionId"
                 = Some (PyInt 50)) by apply lookup_singleton_eq.
  destruct (integer_key_range_test _ _ Hkey) as (Hk & _ & Hout).
  split; [exact Hk|]. apply Hout. left. reflexivity.
Defined.

(** ** Splitting and reordering the dataset *)

Lemma min_from_value best l :
  Py.int_value (Py.min_from best l) =
  foldl Z.min (Py.int_value best) (Py.int_value <$> l).
Proof.
  revert best. induction l as [|x l IH]; intros best; simpl; [done|].
  rewrite IH. f_equal.
  destruct (Z.ltb_spec (Py.int_value x) (Py.int_value best)); lia.
Qed.

Lemma max_from_value best l :
  Py.int_value (Py.max_from best l) =
  foldl Z.max (Py.int_value best) (Py.int_value <$> l).
Proof.
  revert best. induction l as [|x l IH]; intros best; simpl; [done|].
  rewrite IH. f_equal.
  destruct (Z.ltb_spec (Py.int_value best) (Py.int_value x)); lia.
Qed.

Lemma foldl_min_cons a v (l : list Z) :
  foldl Z.min (Z.min a v) l = Z.min a (foldl Z.min v l).
Proof.
  revert a v. induction l as [|x l IH]; intros a v; simpl; [done|].
  by rewrite <- Z.min_assoc, IH.
Qed.

Lemma foldl_max_cons a v (l : list Z) :
  foldl Z.max (Z.max a v) l = Z.max a (foldl Z.max v l).
Proof.
  revert a v. induction l as [|x l IH]; intros a v; simpl; [done|].
  by rewrite <- Z.max_assoc, IH.
Qed.

Lemma checked_keys_app (d1 d2 : list record) :
  checked_keys (d1 ++ d2) = checked_keys d1 ++ checked_keys d2.
Proof. unfold checked_keys. by rewrite fmap_app, filter_app. Qed.

(** X4. Validating two datasets one after the other as a single dataset
    adds up: when both parts return, the whole returns with the sum of the
    counts, the lesser of the minima, the greater of the maxima, and the
    invalid entries of the first part followed by those of the second. *)
Theorem analyze_concatenation (d1 d2 : list record) (s1 s2 : stats) :
  analyze_section_ids d1 = Returned s1 →
  analyze_section_ids d2 = Returned s2 →
  ∃ st, analyze_section_ids (d1 ++ d2) = Returned st
    ∧ stats_count st = (stats_count s1 + stats_count s2)%nat
    ∧ Py.int_value (stats_min st)
      = Z.min (Py.int_value (stats_min s1)) (Py.int_value (stats_min s2))
    ∧ Py.int_value (stats_max st)
      = Z.max (Py.int_value (stats_max s1)) (Py.int_value (stats_max s2))
    ∧ stats_invalid st = stats_invalid s1 ++ stats_invalid s2.
Proof.
  intros H1 H2.
  destruct (returned_fields d1 s1 H1)
    as (f1 & r1 & Hk1 & -> & -> & -> & ->).
  destruct (returned_fields d2 s2 H2)
    as (f2 & r2 & Hk2 & -> & -> & -> & ->).
  rewrite analyze_unfold, checked_keys_app, Hk1, Hk2; simpl.
  eexists. split; [reflexivity|]. simpl.
  split; [by rewrite length_app|].
  split; [|split; [|by rewrite bind_app]].
  - rewrite !min_from_value, fmap_app, foldl_app, fmap_cons; simpl.
    apply foldl_min_cons.
  - rewrite !max_from_value, fmap_app, foldl_app, fmap_cons; simpl.
    apply foldl_max_cons.
Qed.

Lemma analyze_concatenation_witness :
  let d1 : list record := [ {[ "sectionId" := PyInt 150000 ]} ] in
  let d2 : list record := [ {[ "sectionId" := PyInt 50 ]}; ∅ ] in
  ∃ st, analyze_section_ids (d1 ++ d2) = Returned st
    ∧ stats_count st = 2%nat
    ∧ Py.int_value (stats_min st) = 50
    ∧ Py.int_value (stats_max st) = 150000.
Proof.
  intros d1 d2.
  assert (H1 : analyze_section_ids d1 =
    Returned (Stats 1 (PyInt 150000) (PyInt 150000) (d1 ≫= reported)))
    by (vm_compute; reflexivity).
  assert (H2 : analyze_section_ids d2 =
    Returned (Stats 1 (PyInt 50) (PyInt 50) (d2 ≫= reported)))
    by (vm_compute; reflexivity).
  destruct (analyze_concatenation d1 d2 _ _ H1 H2)
    as (st & Hst & Hc & Hlo & Hhi & _).
  exists st. split; [exact Hst|]. split; [exact Hc|].
  split; [exact Hlo | exact Hhi].
Defined.

(** X5. The order of the records does not matter for the figures: on a
    permutation of the dataset the validator returns again, with the same
    count, a minimum and a maximum of the same value, and the same invalid
    entries in permuted order. *)
Theorem analyze_permutation (d d' : list record) (st : stats) :
  d ≡ₚ d' →
  analyze_section_ids d = Returned st →
  ∃ st', analyze_section_ids d' = Returned st'
    ∧ stats_count st' = stats_count st
    ∧ Py.int_value (stats_min st') = Py.int_value (stats_min st)
    ∧ Py.int_value (stats_max st') = Py.int_value (stats_max st)
    ∧ stats_invalid st' ≡ₚ stats_invalid st.
Proof.
  intros Hperm Hst.
  destruct (returned_fields d st Hst) as (f & r & Hk & -> & -> & -> & ->).
  assert (Hkeys : checked_keys d ≡ₚ checked_keys d').
  { unfold checked_keys. by rewrite Hperm. }
  rewrite analyze_unfold.
  destruct (checked_keys d') as [|f' r'] eqn:Hk'.
  { rewrite Hk in Hkeys. by apply Permutation_nil_r in Hkeys. }
  eexists. split; [reflexivity|]. simpl.
  rewrite Hk in Hkeys |- *.
  split; [exact (eq_sym (Permutation_length Hkeys))|].
  split; [|split; [|by rewrite Hperm]].
  - apply Z.le_antisymm.
    + apply min_from_le. rewrite <- Hkeys. apply min_from_elem.
    + apply min_from_le. rewrite Hkeys. apply min_from_elem.
  - apply Z.le_antisymm.
    + apply max_from_ge. rewrite Hkeys. apply max_from_elem.
    + apply max_from_ge. rewrite <- Hkeys. apply max_from_elem.
Qed.

Lemma analyze_permutation_witness :
  ∃ st', analyze_section_ids (reverse sample) = Returned st'
    ∧ stats_count st' = 2%nat
    ∧ Py.int_value (stats_min st') = 50
    ∧ Py.int_value (stats_max st') = 150000.
Proof.
  assert (H : analyze_section_ids sample =
    Returned (Stats 2 (PyInt 50) (PyInt 150000) (sample ≫= reported)))
    by (vm_compute; reflexivity).
  assert (Hperm : sample ≡ₚ reverse sample)
    by (symmetry; apply reverse_Permutation).
  destruct (analyze_permutation sample (reverse sample) _ Hperm H)
    as (st' & Hst' & Hc & Hlo & Hhi & _).
  exists st'. split; [exact Hst'|]. split; [exact Hc|].
  split; [exact Hlo | exact Hhi].
Defined.

(** ** What the validator reads and what it writes *)

Lemma loop_body_reads_three_fields (e e' : record) :
  Py.get e "sectionId" = Py.get e' "sectionId" →
  Py.get e "courseCode" = Py.get e' "courseCode" →
  Py.get e "sectionName" = Py.get e' "sectionName" →
  keys_of e = keys_of e' ∧ reported e = reported e'.
Proof.
  intros Hid Hcode Hname.
  unfold keys_of, reported, loop_body, range_entry, type_entry.
  by rewrite Hid, Hcode, Hname.
Qed.

(** X6. The validator reads nothing of a record but [sectionId],
    [courseCode] and [sectionName]: two datasets whose records agree, one by
    one, on what [get] gives for these three keys have the same outcome. *)
Theorem other_fields_ignored (d d' : list record) :
  Forall2 (λ e e' : record,
    Py.get e "sectionId" = Py.get e' "sectionId"
    ∧ Py.get e "courseCode" = Py.get e' "courseCode"
    ∧ Py.get e "sectionName" = Py.get e' "sectionName") d d' →
  analyze_section_ids d = analyze_section_ids d'.
Proof.
  intros Hagree.
  assert (Hboth : d ≫= keys_of = d' ≫= keys_of
                  ∧ d ≫= reported = d' ≫= reported).
  { induction Hagree as [|e e' d d' (Hid & Hcode & Hname) _ [IHk IHr]];
      [done|].
    destruct (loop_body_reads_three_fields e e' Hid Hcode Hname) as [Hk Hr].
    by rewrite !bind_cons, Hk, Hr, IHk, IHr. }
  destruct Hboth as [Hk Hr].
  rewrite !analyze_unfold, <- !keys_of_checked, Hk, Hr. reflexivity.
Qed.

Lemma other_fields_ignored_witness :
  analyze_section_ids
    [ {[ "sectionId" := PyInt 150000; "room" := PyStr "UB1" ]};
      {[ "courseCode" := PyNone; "faculty" := PyStr "TBA" ]} ]
  = analyze_section_ids [ {[ "sectionId" := PyInt 150000 ]}; ∅ ].
Proof.
  apply other_fields_ignored.
  constructor; [by vm_compute|].
  constructor; [by vm_compute|].
  constructor.
Defined.

(** X7. Every entry of a returned invalid list comes from a record of the
    dataset: it holds that record's [sectionId], [courseCode] and
    [sectionName] as [get] gives them ([None] for an absent key), it has the
    [issue] text exactly when the key failed the type test, and it has no
    other key. *)
Theorem invalid_entry_provenance (d : list record) (st : stats) (item : record) :
  analyze_section_ids d = Returned st →
  item ∈ stats_invalid st →
  ∃ entry, entry ∈ d
    ∧ item !! "sectionId" = Some (Py.get entry "sectionId")
    ∧ item !! "courseCode" = Some (Py.get entry "courseCode")
    ∧ item !! "sectionName" = Some (Py.get entry "sectionName")
    ∧ item !! "issue" =
        (if Py.isinstance_int (Py.get entry "sectionId")
         then None else Some (PyStr issue_text))
    ∧ dom item ⊆
        ({[ "sectionId"; "courseCode"; "sectionName"; "issue" ]} : gset string).
Proof.
  intros Hst Hitem.
  destruct (returned_fields d st Hst) as (_ & _ & _ & _ & _ & _ & Hinv).
  rewrite Hinv in Hitem.
  apply list_elem_of_bind in Hitem as (entry & Hitem & Hentry).
  exists entry. split; [exact Hentry|].
  destruct (reported_cases entry) as [(Hi & _ & Hr)|[(Hi & _ & Hr)|(Hi & Hr)]];
    rewrite Hr in Hitem; rewrite Hi.
  - by apply elem_of_nil in Hitem.
  - apply list_elem_of_singleton in Hitem as ->. unfold range_entry.
    rewrite !dom_insert_L, dom_singleton_L.
    split; [by simplify_map_eq|]. split; [by simplify_map_eq|].
    split; [by simplify_map_eq|]. split; [by simplify_map_eq|].
    intros k; set_unfold; tauto.
  - apply list_elem_of_singleton in Hitem as ->. unfold type_entry.
    rewrite !dom_insert_L, dom_singleton_L.
    split; [by simplify_map_eq|]. split; [by simplify_map_eq|].
    split; [by simplify_map_eq|]. split; [by simplify_map_eq|].
    intros k; set_unfold; tauto.
Qed.

Lemma invalid_entry_provenance_witness :
  ∃ entry, entry ∈ sample
    ∧ type_entry (PyStr "bad") (rec3 PyNone (PyStr "CS103") (PyStr "C"))
        !! "sectionId" = Some (Py.get entry "sectionId").
Proof.
  assert (H : analyze_section_ids sample =
    Returned (Stats 2 (PyInt 50) (PyInt 150000)
      [ rec3 (PyInt 50) (PyStr "CS102") (PyStr "B");
        type_entry (PyStr "bad") (rec3 PyNone (PyStr "CS103") (PyStr "C")) ]))
    by (vm_compute; reflexivity).
  destruct (invalid_entry_provenance sample _
              (type_entry (PyStr "bad") (rec3 PyNone (PyStr "CS103") (PyStr "C")))
              H ltac:(right; left))
    as (entry & Hin & Hid & _).
  exists entry. split; [exact Hin | exact Hid].
Defined.

(** * Further properties of the report *)

Lemma not_elem_of_filter_nil (P : string → Prop) `{∀ x, Decision (P x)}
    (l : list string) (x : string) :
  filter P l = [] → P x → x ∉ l.
Proof.
  intros Hnil HP Hin.
  assert (Hx : x ∈ filter P l) by (by apply list_elem_of_filter).
  rewrite Hnil in Hx. by apply elem_of_nil in Hx.
Qed.

Lemma report_lines_count (st : stats) :
  length (report_lines st) =
    (8 + Nat.min 50 (length (stats_invalid st))
     + (if (50 <? length (stats_invalid st))%nat then 1 else 0))%nat
  ∧ length (filter (λ line, is_item_line line) (report_lines st))
    = Nat.min 50 (length (stats_invalid st)).
Proof.
  split.
  - unfold report_lines. rewrite length_app.
    destruct (stats_invalid st) as [|item items] eqn:Hinv; [reflexivity|].
    rewrite <- Hinv. rewrite !length_app, length_fmap, length_take.
    destruct (50 <? length (stats_invalid st))%nat; simpl; lia.
  - unfold report_lines. rewrite filter_app, filter_item_head.
    destruct (stats_invalid st) as [|item items] eqn:Hinv; [reflexivity|].
    rewrite <- Hinv. rewrite !filter_app, filter_item_lines.
    rewrite !length_app, length_fmap, length_take.
    destruct (50 <? length (stats_invalid st))%nat; reflexivity || (simpl; lia).
Qed.

(** X8. When no printed value of the dictionary holds a newline, the text
    of the report has 8 lines plus one per invalid entry up to 50, plus one
    when there are more than 50: the lines that itemize an entry number
    [min 50 n] for [n] invalid entries, and the text never has more than 59
    lines. *)
Theorem report_line_count (st : stats) :
  one_line_values st →
  length (split_lines (format_report st)) =
    (8 + Nat.min 50 (length (stats_invalid st))
     + (if (50 <? length (stats_invalid st))%nat then 1 else 0))%nat
  ∧ length (filter (λ line, is_item_line line)
                   (split_lines (format_report st)))
    = Nat.min 50 (length (stats_invalid st))
  ∧ (length (split_lines (format_report st)) ≤ 59)%nat.
Proof.
  intros Hclean. rewrite (text_lines_of_report st Hclean).
  destruct (report_lines_count st) as [Hlen Hitems].
  split; [exact Hlen|]. split; [exact Hitems|].
  rewrite Hlen. destruct (50 <? length (stats_invalid st))%nat; lia.
Qed.

Lemma report_line_count_witness :
  one_line_values stats51
  ∧ length (split_lines (format_report stats51)) = 59%nat
  ∧ length (filter (λ line, is_item_line line)
                   (split_lines (format_report stats51))) = 50%nat.
Proof.
  destruct (report_line_count stats51 stats51_one_line) as (Hlen & Hitems & _).
  split; [exact stats51_one_line|]. split; [exact Hlen | exact Hitems].
Defined.

(** X9. With between 1 and 50 invalid entries, and no newline in a printed
    value, nothing is cut: the lines of the text are the head lines, the
    header of the invalid list and one line for every entry, in order, and
    no line of the text is the truncation notice. *)
Theorem report_not_truncated_up_to_50 (st : stats) :
  (1 ≤ length (stats_invalid st) ≤ 50)%nat →
  one_line_values st →
  split_lines (format_report st) =
    head_lines st ++ [invalid_header st] ++ (item_line <$> stats_invalid st)
  ∧ (truncation_line ∉ split_lines (format_report st))
  ∧ length (filter (λ line, is_item_line line)
                   (split_lines (format_report st)))
    = length (stats_invalid st).
Proof.
  intros [Hlo Hhi] Hclean. rewrite (text_lines_of_report st Hclean).
  assert (Hlines : report_lines st =
    head_lines st ++ [invalid_header st] ++ (item_line <$> stats_invalid st)).
  { unfold report_lines.
    destruct (stats_invalid st) as [|item items] eqn:Hinv; [simpl in Hlo; lia|].
    rewrite take_ge by lia.
    assert (Hnot : (50 <? length (item :: items))%nat = false)
      by (apply Nat.ltb_ge; lia).
    rewrite Hnot. by rewrite app_nil_r. }
  split; [exact Hlines|]. split.
  - rewrite Hlines.
    apply (not_elem_of_filter_nil (λ line, line = truncation_line));
      [|reflexivity].
    rewrite !filter_app, filter_truncation_head, filter_truncation_items.
    reflexivity.
  - rewrite Hlines, !filter_app, filter_item_head, filter_item_lines.
    rewrite !length_app, length_fmap. reflexivity.
Qed.

Lemma report_not_truncated_up_to_50_witness :
  let st := Stats 50 (PyInt 7) (PyInt 7) (replicate 50 (range_entry (PyInt 7) ∅)) in
  (1 ≤ length (stats_invalid st) ≤ 50)%nat
  ∧ one_line_values st
  ∧ (truncation_line ∉ split_lines (format_report st))
  ∧ length (split_lines (format_report st)) = 58%nat.
Proof.
  intros st.
  assert (Hlen : (1 ≤ length (stats_invalid st) ≤ 50)%nat)
    by (vm_compute; split; lia).
  assert (Hclean : one_line_values st).
  { split; [reflexivity|]. split; [reflexivity|].
    apply Forall_take, Forall_replicate.
    split; [reflexivity|]. split; [reflexivity|]. split; reflexivity. }
  destruct (report_not_truncated_up_to_50 st Hlen Hclean) as (Hlines & Hnot & _).
  split; [exact Hlen|]. split; [exact Hclean|]. split; [exact Hnot|].
  rewrite Hlines. reflexivity.
Defined.

(** * From the dataset to the printed lines *)

Lemma item_line_range_entry (v : pyval) (entry : record) :
  item_line (range_entry v entry) =
  "  - sectionId=" +:+ Py.str v
  +:+ " courseCode=" +:+ Py.str (Py.get entry "courseCode")
  +:+ " sectionName=" +:+ Py.str (Py.get entry "sectionName")
  +:+ " issue=out of range".
Proof.
  unfold item_line, Py.get_or, range_entry.
  unfold Py.get at 1 2 3. by simplify_map_eq.
Qed.

Lemma item_line_type_entry (v : pyval) (entry : record) :
  item_line (type_entry v entry) =
  "  - sectionId=" +:+ Py.str v
  +:+ " courseCode=" +:+ Py.str (Py.get entry "courseCode")
  +:+ " sectionName=" +:+ Py.str (Py.get entry "sectionName")
  +:+ " issue=Missing or non-integer sectionId".
Proof.
  unfold item_line, Py.get_or, type_entry.
  unfold Py.get at 1 2 3. by simplify_map_eq.
Qed.

(** X11. The line the report prints for an entry of a returned invalid list
    shows a record of the dataset: its [sectionId], [courseCode] and
    [sectionName] as [str()] prints them ([None] for an absent key), then
    [issue=out of range] when the key passed the type test and
    [issue=Missing or non-integer sectionId] when it did not. *)
Theorem printed_line_of_invalid_entry
    (d : list record) (st : stats) (item : record) :
  analyze_section_ids d = Returned st →
  item ∈ stats_invalid st →
  ∃ entry, entry ∈ d
    ∧ item_line item =
        "  - sectionId=" +:+ Py.str (Py.get entry "sectionId")
        +:+ " courseCode=" +:+ Py.str (Py.get entry "courseCode")
        +:+ " sectionName=" +:+ Py.str (Py.get entry "sectionName")
        +:+ (if Py.isinstance_int (Py.get entry "sectionId")
             then " issue=out of range"
             else " issue=Missing or non-integer sectionId").
Proof.
  intros Hst Hitem.
  destruct (returned_fields d st Hst) as (_ & _ & _ & _ & _ & _ & Hinv).
  rewrite Hinv in Hitem.
  apply list_elem_of_bind in Hitem as (entry & Hitem & Hentry).
  exists entry. split; [exact Hentry|].
  destruct (reported_cases entry) as [(Hi & _ & Hr)|[(Hi & _ & Hr)|(Hi & Hr)]];
    rewrite Hr in Hitem; rewrite Hi.
  - by apply elem_of_nil in Hitem.
  - apply list_elem_of_singleton in Hitem as ->. apply item_line_range_entry.
  - apply list_elem_of_singleton in Hitem as ->. apply item_line_type_entry.
Qed.

Lemma printed_line_of_invalid_entry_witness :
  let d : list record :=
    [ {[ "sectionId" := PyInt 150000 ]}; {[ "courseCode" := PyStr "CS104" ]} ] in
  ∃ st item, analyze_section_ids d = Returned st
    ∧ item ∈ stats_invalid st
    ∧ ∃ entry, entry ∈ d
        ∧ item_line item =
            "  - sectionId=" +:+ Py.str (Py.get entry "sectionId")
            +:+ " courseCode=" +:+ Py.str (Py.get entry "courseCode")
            +:+ " sectionName=" +:+ Py.str (Py.get entry "sectionName")
            +:+ (if Py.isinstance_int (Py.get entry "sectionId")
                 then " issue=out of range"
                 else " issue=Missing or non-integer sectionId").
Proof.
  intros d.
  pose (item := type_entry PyNone {[ "courseCode" := PyStr "CS104" ]}).
  assert (H : analyze_section_ids d =
    Returned (Stats 1 (PyInt 150000) (PyInt 150000) [item]))
    by (vm_compute; reflexivity).
  assert (Hin : item ∈ stats_invalid
    (Stats 1 (PyInt 150000) (PyInt 150000) [item])) by (simpl; left).
  exists (Stats 1 (PyInt 150000) (PyInt 150000) [item]), item.
  split; [exact H|]. split; [exact Hin|].
  exact (printed_line_of_invalid_entry d _ item H Hin).
Defined.

Example missing_key_line :
  item_line <$> reported {[ "courseCode" := PyStr "CS104" ]} =
  [ "  - sectionId=None courseCode=CS104 sectionName=None issue=Missing or non-integer sectionId" ].
Proof. vm_compute. reflexivity. Qed.

(** * When the validator raises *)

Lemma key_test_by_lookup (entry : record) :
  Py.isinstance_int (Py.get entry "sectionId") =
  match entry !! "sectionId" with
  | Some (PyInt _) | Some (PyBool _) => true
  | _ => false
  end.
Proof.
  unfold Py.get. by destruct (entry !! "sectionId") as [[]|].
Qed.

(** X12. The validator raises its [ValueError] exactly when no record
    holds an [int] or a [bool] under [sectionId] (the key is absent, or its
    value is [None], a string or anything else), and it returns a
    dictionary exactly when some record holds one. *)
Theorem raises_iff_no_int_or_bool_key (d : list record) :
  (analyze_section_ids d = Raised (ValueError no_ids_message) ↔
     Forall (λ entry : record,
       (∀ z, entry !! "sectionId" ≠ Some (PyInt z))
       ∧ (∀ b, entry !! "sectionId" ≠ Some (PyBool b))) d)
  ∧ ((∃ st, analyze_section_ids d = Returned st) ↔
     Exists (λ entry : record,
       (∃ z, entry !! "sectionId" = Some (PyInt z))
       ∨ (∃ b, entry !! "sectionId" = Some (PyBool b))) d).
Proof.
  assert (Hnone : ∀ entry : record,
    Py.isinstance_int (Py.get entry "sectionId") = false ↔
    (∀ z, entry !! "sectionId" ≠ Some (PyInt z))
    ∧ (∀ b, entry !! "sectionId" ≠ Some (PyBool b))).
  { intros entry. rewrite key_test_by_lookup.
    destruct (entry !! "sectionId") as [[|b|z|s|s]|]; split; try done.
    - intros [_ Hb]. by destruct (Hb b).
    - intros [Hz _]. by destruct (Hz z). }
  assert (Hraise : analyze_section_ids d = Raised (ValueError no_ids_message) ↔
     Forall (λ entry : record,
       (∀ z, entry !! "sectionId" ≠ Some (PyInt z))
       ∧ (∀ b, entry !! "sectionId" ≠ Some (PyBool b))) d).
  { rewrite analyze_unfold.
    transitivity (checked_keys d = []).
    - destruct (checked_keys d); split; congruence.
    - rewrite checked_keys_nil. apply Forall_proper; [exact Hnone | done]. }
  split; [exact Hraise|].
  rewrite Exists_exists. split.
  - intros [st Hst]. rewrite analyze_unfold in Hst.
    destruct (checked_keys d) as [|k ks] eqn:Hkeys; [done|].
    assert (Hk : k ∈ checked_keys d) by (rewrite Hkeys; left).
    unfold checked_keys in Hk.
    apply list_elem_of_filter in Hk as [Hint Hk].
    apply list_elem_of_fmap in Hk as (entry & -> & Hin).
    exists entry. split; [done|].
    apply Is_true_true in Hint. rewrite key_test_by_lookup in Hint.
    destruct (entry !! "sectionId") as [[|b|z|s|s]|]; try done.
    + right. by exists b.
    + left. by exists z.
  - intros (entry & Hin & Hkey).
    destruct (analyze_section_ids d) as [e|st] eqn:Hout; [|by exists st].
    rewrite analyze_unfold in Hout.
    destruct (checked_keys d) eqn:Hkeys; [|done].
    apply checked_keys_nil in Hkeys. rewrite Forall_forall in Hkeys.
    specialize (Hkeys _ Hin). apply Hnone in Hkeys as [Hz Hb].
    destruct Hkey as [[z Hkey]|[b Hkey]]; [by destruct (Hz z) | by destruct (Hb b)].
Qed.

Lemma raises_iff_no_int_or_bool_key_witness :
  analyze_section_ids
    [ {[ "courseCode" := PyStr "CS101" ]}; {[ "sectionId" := PyStr "150000" ]} ]
    = Raised (ValueError no_ids_message)
  ∧ ∃ st, analyze_section_ids
            [ {[ "courseCode" := PyStr "CS101" ]}; {[ "sectionId" := PyInt 5 ]} ]
          = Returned st.
Proof.
  split.
  - apply (proj1 (raises_iff_no_int_or_bool_key _)).
    apply Forall_cons_2; [|apply Forall_cons_2; [|apply Forall_nil_2]];
      split; intros ?; by vm_compute.
  - apply (proj2 (raises_iff_no_int_or_bool_key _)).
    apply Exists_cons_tl, Exists_cons_hd. left. exists 5.
    apply lookup_singleton_eq.
Defined.
